(** * Verification model of guidobit/cdk-oas30-test

    Two source files are embedded here:
    - the Lambda handler [src/lambda/getoas3.ts] (its text is the unnamed
      source part), which asks API Gateway for an OAS3 export and returns it;
    - the CDK stack [src/lib/api-docs-stack.ts], whose [createApi] and
      documentation parts build the documentation artifacts from one [now].

    Bytes are [Z] values in [0, 255]; code points are [Z] values.  JS strings
    are modelled as lists of Unicode code points. *)

From Stdlib Require Import ZArith List String Ascii Bool Lia.
Import ListNotations.
Open Scope Z_scope.

(** ** UTF-8 decoding: [Buffer.prototype.toString('utf8')]

    Node decodes with the WHATWG UTF-8 decoder, which replaces every maximal
    ill-formed subsequence by U+FFFD.  The state mirrors the algorithm's
    variables (bytes needed, bytes seen, code point, lower and upper
    boundary). *)
Record utf8_state := mkU {
  needed : Z; seen : Z; code_point : Z; lower : Z; upper : Z
}.

Definition u_init : utf8_state := mkU 0 0 0 0x80 0xBF.

Definition replacement : Z := 0xFFFD.

(** A byte read while no continuation byte is expected. *)
Definition u_lead (b : Z) : list Z * utf8_state :=
  if (0 <=? b) && (b <=? 0x7F) then ([b], u_init)
  else if (0xC2 <=? b) && (b <=? 0xDF) then
    ([], mkU 1 0 (Z.land b 0x1F) 0x80 0xBF)
  else if (0xE0 <=? b) && (b <=? 0xEF) then
    ([], mkU 2 0 (Z.land b 0xF)
            (if b =? 0xE0 then 0xA0 else 0x80)
            (if b =? 0xED then 0x9F else 0xBF))
  else if (0xF0 <=? b) && (b <=? 0xF4) then
    ([], mkU 3 0 (Z.land b 0x7)
            (if b =? 0xF0 then 0x90 else 0x80)
            (if b =? 0xF4 then 0x8F else 0xBF))
  else ([replacement], u_init).

(** The decoder loop.  A byte outside [lower, upper] while a continuation is
    expected emits U+FFFD and is then re-read as a lead byte. *)
Fixpoint utf8_go (st : utf8_state) (bs : list Z) : list Z :=
  match bs with
  | [] => if needed st =? 0 then [] else [replacement]
  | b :: rest =>
      if needed st =? 0 then
        let '(out, st') := u_lead b in out ++ utf8_go st' rest
      else if (b <? lower st) || (upper st <? b) then
        replacement :: (let '(out, st') := u_lead b in out ++ utf8_go st' rest)
      else
        let cp := Z.lor (Z.shiftl (code_point st) 6) (Z.land b 0x3F) in
        if seen st + 1 =? needed st then cp :: utf8_go u_init rest
        else utf8_go (mkU (needed st) (seen st + 1) cp 0x80 0xBF) rest
  end.

Definition utf8_decode (bs : list Z) : list Z := utf8_go u_init bs.

(** UTF-8 encoding of one Unicode scalar value, as done when the response
    string is serialised on the wire. *)
Definition utf8_encode_cp (c : Z) : list Z :=
  if c <? 0x80 then [c]
  else if c <? 0x800 then
    [Z.lor 0xC0 (Z.shiftr c 6); Z.lor 0x80 (Z.land c 0x3F)]
  else if c <? 0x10000 then
    [Z.lor 0xE0 (Z.shiftr c 12); Z.lor 0x80 (Z.land (Z.shiftr c 6) 0x3F);
     Z.lor 0x80 (Z.land c 0x3F)]
  else
    [Z.lor 0xF0 (Z.shiftr c 18); Z.lor 0x80 (Z.land (Z.shiftr c 12) 0x3F);
     Z.lor 0x80 (Z.land (Z.shiftr c 6) 0x3F); Z.lor 0x80 (Z.land c 0x3F)].

Definition utf8_encode (cs : list Z) : list Z := flat_map utf8_encode_cp cs.

(** Unicode scalar values: code points that are not surrogates. *)
Definition scalar_value (c : Z) : Prop :=
  (0 <= c < 0xD800) \/ (0xE000 <= c <= 0x10FFFF).

(** ** The export handler ([src/lambda/getoas3.ts])

    [process.env] is a JS object of strings: an association list with unique
    keys, where a missing key reads as [undefined] ([None]). *)
Open Scope string_scope.
Open Scope Z_scope.

Definition env := list (string * string).

Fixpoint env_get (e : env) (k : string) : option string :=
  match e with
  | [] => None
  | (k', v) :: e' => if String.eqb k k' then Some v else env_get e' k
  end.

(** [GetExportRequest] of the SDK.  The [as string] casts are erased at run
    time, so an unset variable reaches the request as [undefined]. *)
Record GetExportRequest := mkGetExportRequest {
  restApiId : option string;
  stageName : option string;
  exportType : string;
  parameters : list (string * string)
}.

(** The incoming API Gateway (payload v2) event; the handler never reads it. *)
Record APIGatewayProxyEventV2 := mkEvent {
  rawPath : string;
  rawQueryString : string;
  ev_headers : list (string * string);
  ev_body : option string
}.

Record AWSError := mkAWSError { err_code : string; err_message : string }.

(** [GetExportResponse]: [body] is an optional [Blob] (a [Buffer] in Node). *)
Record GetExportResponse := mkGetExportResponse {
  contentType : option string;
  contentDisposition : option string;
  body : option (list Z)
}.

(** What API Gateway answers to one [getExport] request. *)
Inductive sdk_result :=
| SdkErr (e : AWSError)
| SdkOk (d : GetExportResponse).

(** The SDK calls back with [(err, null)] on failure and [(null, data)] on
    success. *)
Definition sdk_callback_args (r : sdk_result) : option AWSError * option GetExportResponse :=
  match r with
  | SdkErr e => (Some e, None)
  | SdkOk d => (None, Some d)
  end.

(** The value passed to the Lambda [callback] on success. *)
Record APIGatewayProxyResultV2 := mkResult {
  statusCode : Z;
  headers : list (string * string);
  res_body : list Z   (** the body string, as code points *)
}.

Inductive js_error :=
| TypeError (msg : string).

(** Observable effects of one invocation, in order.  [GetExport region req]
    is the call [client.getExport(req, cb)] on the client built for
    [region]; the HTTP requests the SDK sends for that call are given by
    [aws_getExport] below. *)
Inductive effect :=
| GetExport (region : string) (req : GetExportRequest)
| CallbackError (e : AWSError)
| CallbackResult (r : APIGatewayProxyResultV2)
| Throw (e : js_error).

Definition getExportParams (pe : env) : GetExportRequest :=
  {| restApiId := env_get pe "restApiId";
     stageName := env_get pe "stage";
     exportType := "oas30";
     parameters := [("extensions", "documentation")] |}.

Definition null_body_error : js_error :=
  TypeError "Cannot read properties of null (reading 'body')".

Definition buffer_from_undefined_error : js_error :=
  TypeError ("The first argument must be of type string or an instance of Buffer, " ++
             "ArrayBuffer, or Array or an Array-like Object. Received undefined").

Definition cors_headers : list (string * string) :=
  [("Access-Control-Allow-Origin", "*")].

(** The callback given to [client.getExport]:
    [if (err) callback(err); callback(null, {...data.body...})].
    The error branch does not return, so [data.body] is read in both cases;
    a throw ends the callback. *)
Definition export_callback (err : option AWSError) (data : option GetExportResponse)
  : list effect :=
  (match err with Some e => [CallbackError e] | None => [] end) ++
  match data with
  | None => [Throw null_body_error]
  | Some d =>
      match body d with
      | None => [Throw buffer_from_undefined_error]
      | Some b =>
          [CallbackResult {| statusCode := 200;
                             headers := cors_headers;
                             res_body := utf8_decode b |}]
      end
  end.

(** [handler(event, context, callback)] with a client whose [getExport]
    calls back with [platform req]: whatever the SDK ends up with, after its
    own validation and retries ([handler_aws] below plugs in the SDK). *)
Definition handler (event : APIGatewayProxyEventV2) (pe : env)
  (platform : GetExportRequest -> sdk_result) : list effect :=
  let req := getExportParams pe in
  GetExport "eu-west-1" req ::
  let '(err, data) := sdk_callback_args (platform req) in export_callback err data.

(** The bytes a caller receives: the body string sent as UTF-8. *)
Definition response_bytes (r : APIGatewayProxyResultV2) : list Z :=
  utf8_encode (res_body r).

Definition is_callback (x : effect) : bool :=
  match x with CallbackError _ | CallbackResult _ => true | _ => false end.

Definition is_get_export (x : effect) : bool :=
  match x with GetExport _ _ => true | _ => false end.

Definition ev0 : APIGatewayProxyEventV2 :=
  mkEvent "/api-docs/api-docs.json" EmptyString [] None.

Definition ev1 : APIGatewayProxyEventV2 :=
  mkEvent "/api-docs/api-docs.json" "restApiId=other&stage=dev"
    [("content-type", "text/plain")] (Some "restApiId=other").

(** The Lambda environment that [getOas3Spec] configures. *)
Definition env_stack : env :=
  [("restApiId", "dekq8mivw9"); ("stage", "prod"); ("extensions", "apigateway")].

(** ** The CDK stack ([src/lib/api-docs-stack.ts]) *)

(** [Number.prototype.toString] on an integer: plain decimal digits, which
    JS uses for every integer of magnitude below 10^21. *)
Definition digit_char (d : Z) : ascii := ascii_of_nat (48 + Z.to_nat d).

Fixpoint digits_aux (fuel : nat) (n : Z) (acc : string) : string :=
  match fuel with
  | O => acc
  | S f =>
      let acc' := String (digit_char (n mod 10)) acc in
      if n <? 10 then acc' else digits_aux f (n / 10) acc'
  end.

Definition number_to_string (t : Z) : string :=
  if t <? 0 then String "-"%char (digits_aux 21 (- t) EmptyString)
  else digits_aux 21 t EmptyString.

(** [Number(s)] on a string of decimal digits with an optional sign: the
    numeric value of a documentation version id. *)
Fixpoint parse_from (v : Z) (s : string) : Z :=
  match s with
  | EmptyString => v
  | String c r => parse_from (v * 10 + (Z.of_nat (nat_of_ascii c) - 48)) r
  end.

Definition version_value (s : string) : Z :=
  match s with
  | String "-"%char r => - parse_from 0 r
  | _ => parse_from 0 s
  end.

(** The time values a JS [Date] can hold (milliseconds since the epoch). *)
Definition valid_time (t : Z) : Prop := -8640000000000000 <= t <= 8640000000000000.

Definition pad (w : nat) (n : Z) : string :=
  let s := digits_aux 21 n EmptyString in
  append (String.concat EmptyString (repeat "0" (w - String.length s))) s.

(** Proleptic Gregorian date of a day number (days since 1970-01-01). *)
Definition civil_from_days (days : Z) : Z * Z * Z :=
  let z := days + 719468 in
  let era := z / 146097 in
  let doe := z - era * 146097 in
  let yoe := (doe - doe / 1460 + doe / 36524 - doe / 146096) / 365 in
  let doy := doe - (365 * yoe + yoe / 4 - yoe / 100) in
  let mp := (5 * doy + 2) / 153 in
  let d := doy - (153 * mp + 2) / 5 + 1 in
  let m := if mp <? 10 then mp + 3 else mp - 9 in
  let y := yoe + era * 400 + (if m <=? 2 then 1 else 0) in
  (y, m, d).

(** [Date.prototype.toISOString]: [YYYY-MM-DDTHH:mm:ss.sssZ], with a signed
    six-digit year outside 0..9999. *)
Definition toISOString (t : Z) : string :=
  let days := t / 86400000 in
  let msd := t mod 86400000 in
  let '(y, m, d) := civil_from_days days in
  let ys := if (0 <=? y) && (y <=? 9999) then pad 4 y
            else append (if y <? 0 then "-" else "+") (pad 6 (Z.abs y)) in
  ys ++ "-" ++ pad 2 m ++ "-" ++ pad 2 d ++ "T" ++
  pad 2 (msd / 3600000) ++ ":" ++ pad 2 ((msd / 60000) mod 60) ++ ":" ++
  pad 2 ((msd / 1000) mod 60) ++ "." ++ pad 3 (msd mod 1000) ++ "Z".

(** The [location] of a [CfnDocumentationPart]. *)
Record Location := mkLocation {
  loc_type : option string;
  loc_name : option string;
  loc_path : option string;
  loc_method : option string;
  loc_statusCode : option string
}.

Set Warnings "-register-all".

(** The objects handed to [JSON.stringify] for [properties]. *)
Inductive json :=
| JStr (s : string)
| JObj (fields : list (string * json)).

(** The constructs the stack adds to its scope, in order.  Request and
    response models of the methods are left out: no claim depends on them. *)
Inductive construct :=
| CRestApi (id description deployDescription : string)
| CDocVersion (id documentationVersion description : string)
| CDocPart (id : string) (location : Location) (properties : json)
| CAuthorizer (id authorizerName : string)
| CFunction (id : string) (environment : env)
| CResource (path : string)
| CMethod (path verb : string) (operationName : option string).

Definition stack := list construct.

Definition add (c : construct) (s : stack) : stack := app s [c].

(** [new CfnDocumentationPart(this, id, { location, restApiId, properties })]:
    the part is added to the stack as given; nothing checks the location. *)
Definition cfn_documentation_part (id : string) (location : Location)
  (properties : json) (s : stack) : stack :=
  add (CDocPart id location properties) s.

Definition loc (ty : string) (name path method : option string) : Location :=
  mkLocation (Some ty) name path method None.

Definition api_info (iso : string) : json :=
  JObj [("info", JObj [
    ("title", JStr "A custom title");
    ("description", JStr ("Documentation description generated at " ++ iso));
    ("summary", JStr ("Documentation summary generated at " ++ iso));
    ("license", JObj [("name", JStr "MIT");
                      ("url", JStr "https://opensource.org/licenses/MIT")]);
    ("contact", JObj [("name", JStr "Some person");
                      ("email", JStr "example@example.com");
                      ("url", JStr "https://example.com")])])].

(** [createApi]: [now] is read once; the version id is [now.getTime()] and
    every description embeds [now.toISOString()]. *)
Definition createApi (now : Z) (s : stack) : stack :=
  let documentationVersion := number_to_string now in
  let s := add (CRestApi "api" "Blabla description"
                  ("Description of deployment at " ++ toISOString now)) s in
  let s := add (CDocVersion "brute-force-docs-version" documentationVersion
                  ("Documentation generated at " ++ toISOString now)) s in
  cfn_documentation_part "api-docs" (loc "API" None None None)
    (api_info (toISOString now)) s.

Definition authorizer (s : stack) : stack :=
  let s := cfn_documentation_part "some-request-authorizer-doc"
             (loc "AUTHORIZER" (Some "SomeAuthorizer") None None)
             (JObj [("summary", JStr "Some authorizer summary");
                    ("description", JStr "Some authorizer description");
                    ("schema", JObj [("type", JStr "string"); ("format", JStr "uuid");
                       ("example", JStr "10c89c8b-fb09-430d-bfc3-3138736598bf")])]) s in
  let s := add (CFunction "some-authorizer-function" []) s in
  add (CAuthorizer "some-request-authorizer" "SomeAuthorizer") s.

Definition listTodos (todoPath : string) (s : stack) : stack :=
  let s := add (CMethod todoPath "GET" (Some "ListTodos")) s in
  cfn_documentation_part "ListTodo.Header.Authorization"
    (loc "REQUEST_HEADER" (Some "Authorization") (Some todoPath) (Some "GET"))
    (JObj [("description", JStr "Authorization header description");
           ("summary", JStr "Authorization header summary");
           ("x-description", JStr "Authorization header x-description");
           ("x-summary", JStr "Authorization header x-summary")]) s.

Definition createTodo (todoPath : string) (s : stack) : stack :=
  add (CMethod todoPath "POST" (Some "CreateTodo")) s.

Definition todoRoute (s : stack) : stack :=
  let s := add (CResource "/todo") s in
  listTodos "/todo" (createTodo "/todo" s).

Definition getTodoById (itemPath : string) (s : stack) : stack :=
  add (CMethod itemPath "GET" (Some "GetTodoById")) s.

Definition todoItemRoute (todoPath : string) (s : stack) : stack :=
  let itemPath := todoPath ++ "/{todoId}" in
  let s := add (CResource itemPath) s in
  let s := cfn_documentation_part "todoIdDocs"
             (loc "PATH_PARAMETER" (Some "todoId") (Some todoPath) (Some "GET"))
             (JObj [("description", JStr "The id of the todo");
                    ("format", JStr "uuid");
                    ("example", JStr "01d64dee-e83d-4d26-b15a-5a1cd072b666");
                    ("summary", JStr "Sommary of the id of the todo");
                    ("schema", JObj [("type", JStr "string"); ("format", JStr "uuid");
                       ("example", JStr "3908c6bb-941a-4c35-9a45-c6034006e8c5")])]) s in
  getTodoById itemPath s.

Definition getOas3Spec (routePath : string) (s : stack) : stack :=
  let s := add (CFunction "getOas3" env_stack) s in
  add (CMethod routePath "GET" None) s.

Definition apiDocsRoute (s : stack) : stack :=
  let s := add (CResource "/api-docs") s in
  let s := add (CResource "/api-docs/api-docs.json") s in
  getOas3Spec "/api-docs/api-docs.json" s.

(** The [ApiDocsStack] constructor, run at time [now]. *)
Definition ApiDocsStack (now : Z) : stack :=
  apiDocsRoute (todoItemRoute "/todo" (todoRoute (authorizer (createApi now [])))).

Fixpoint doc_parts (s : stack) : list (string * Location * json) :=
  match s with
  | [] => []
  | CDocPart id l p :: s' => (id, l, p) :: doc_parts s'
  | _ :: s' => doc_parts s'
  end.

Fixpoint doc_versions (s : stack) : list (string * string) :=
  match s with
  | [] => []
  | CDocVersion _ v d :: s' => (v, d) :: doc_versions s'
  | _ :: s' => doc_versions s'
  end.

Fixpoint deploy_descriptions (s : stack) : list string :=
  match s with
  | [] => []
  | CRestApi _ _ d :: s' => d :: deploy_descriptions s'
  | _ :: s' => deploy_descriptions s'
  end.

(** The snapshot a registration pass records: its version id, its
    description and its creation time. *)
Record VersionSnapshot := mkSnapshot {
  versionId : string;
  snap_description : string;
  createdAt : Z
}.

Definition snapshots (now : Z) : list VersionSnapshot :=
  map (fun '(v, d) => mkSnapshot v d now) (doc_versions (ApiDocsStack now)).

(** The location-key table of the spec (section 8), which the code does not
    implement: for each type, whether name, path and method are required. *)
Definition spec_required_fields (ty : string) : option (bool * bool * bool) :=
  if String.eqb ty "API" then Some (false, false, false)
  else if String.eqb ty "AUTHORIZER" then Some (true, false, false)
  else if String.eqb ty "PATH_PARAMETER" then Some (true, true, true)
  else if String.eqb ty "REQUEST_HEADER" then Some (true, true, true)
  else if String.eqb ty "RESOURCE" then Some (false, true, false)
  else None.

Definition is_present (o : option string) : bool :=
  match o with Some _ => true | None => false end.

Definition spec_location_ok (l : Location) : bool :=
  match loc_type l with
  | Some ty =>
      match spec_required_fields ty with
      | Some (n, p, m) =>
          Bool.eqb (is_present (loc_name l)) n && Bool.eqb (is_present (loc_path l)) p &&
          Bool.eqb (is_present (loc_method l)) m && negb (is_present (loc_statusCode l))
      | None => false
      end
  | None => false
  end.

(** Checks used to read the artifacts back. *)
Fixpoint strip_prefix (p s : string) : option string :=
  match p, s with
  | EmptyString, _ => Some s
  | String a p', String b s' => if Ascii.eqb a b then strip_prefix p' s' else None
  | String _ _, EmptyString => None
  end.

Fixpoint json_assoc (k : string) (fs : list (string * json)) : option json :=
  match fs with
  | [] => None
  | (k', v) :: fs' => if String.eqb k k' then Some v else json_assoc k fs'
  end.

(** The string at [info.<k>] of a documentation part's properties. *)
Definition info_text (p : json) (k : string) : option string :=
  match p with
  | JObj fs =>
      match json_assoc "info" fs with
      | Some (JObj info) =>
          match json_assoc k info with Some (JStr s) => Some s | _ => None end
      | _ => None
      end
  | JStr _ => None
  end.

Definition opt_bind (f : string -> option string) (o : option string) : option string :=
  match o with Some x => f x | None => None end.

(** Values [lo..hi] all inside one interval of scalar values. *)
Definition range_ok (lo hi : Z) : Prop :=
  (0 <= lo /\ hi <= 0xD7FF) \/ (0xE000 <= lo /\ hi <= 0x10FFFF).

(** Decoder states from which every completed sequence is a scalar value:
    with [r] continuation bytes left, the first within [lower, upper], the
    code points still reachable form a range of scalar values. *)
Definition utf8_inv (st : utf8_state) : Prop :=
  needed st = 0 \/
  exists r, (r = 1 \/ r = 2 \/ r = 3) /\ r = needed st - seen st /\ needed st <> 0 /\
    0x80 <= lower st <= upper st /\ upper st <= 0xBF /\
    range_ok (code_point st * 64 ^ r + (lower st - 0x80) * 64 ^ (r - 1))
             (code_point st * 64 ^ r + (upper st - 0x80) * 64 ^ (r - 1) + 64 ^ (r - 1) - 1).

Definition is_byte (b : Z) : Prop := 0 <= b <= 255.

(** The id of a construct the source creates with the stack itself as
    scope ([new X(this, id, ...)]).  Resources and methods are created by
    [addResource] and [addMethod] in the scope of their parent resource,
    so they are no children of the stack and have no id here. *)
Definition stack_child_id (c : construct) : option string :=
  match c with
  | CRestApi id _ _ | CDocVersion id _ _ | CDocPart id _ _
  | CAuthorizer id _ | CFunction id _ => Some id
  | CResource _ | CMethod _ _ _ => None
  end.

(** The ids of the stack's own children, in creation order. *)
Definition stack_child_ids (s : stack) : list string :=
  flat_map (fun c => match stack_child_id c with Some id => [id] | None => [] end) s.

(** ** The aws-sdk (v2) client behind [client.getExport]

    [new APIGateway({region})] has the default configuration:
    [paramValidation] on and [maxRetries] 3.  A call first validates its
    parameters ([ParamValidator]); a failure calls back with the error and
    sends nothing.  Otherwise the request is sent, and an error answer is
    retried while it is retryable and fewer than [maxRetries] retries have
    been made.  Backoff delays are not modelled. *)

(** The answer of API Gateway to the [n]-th HTTP request of one call:
    [server n req].  [status] is the HTTP status, absent when no response
    came back (networking errors, time-outs). *)
Inductive http_answer :=
| HttpOk (d : GetExportResponse)
| HttpErr (status : option Z) (e : AWSError).

Definition maxRetries : nat := 3.

Definition dq : string := String "034"%char EmptyString.
Definition nl : string := String "010"%char EmptyString.

(** [ParamValidator.validateStructure]: a required key that is [undefined]. *)
Definition missing_required_error (key : string) : AWSError :=
  mkAWSError "MissingRequiredParameter" ("Missing required key '" ++ key ++ "' in params").

(** [ParamValidator.validateUri]: a uri parameter of length 0. *)
Definition uri_parameter_error (key value : string) : AWSError :=
  mkAWSError "UriParameterError"
    ("Expected uri parameter to have length >= 1, but found " ++ dq ++ value ++ dq ++
     " for params." ++ key).

Definition check_required (key : string) (v : option string) : list AWSError :=
  match v with None => [missing_required_error key] | Some _ => [] end.

Definition check_uri (key : string) (v : option string) : list AWSError :=
  match v with Some EmptyString => [uri_parameter_error key EmptyString] | _ => [] end.

(** The errors [ParamValidator] collects for [GetExportRequest]: first the
    required keys [restApiId], [stageName], [exportType] (the last is
    always a string here), then the members in key order; [restApiId],
    [stageName] and [exportType] are uri parameters of
    [/restapis/{restapi_id}/stages/{stage_name}/exports/{export_type}],
    the [parameters] map of strings raises nothing. *)
Definition param_errors (req : GetExportRequest) : list AWSError :=
  app (check_required "restApiId" (restApiId req))
  (app (check_required "stageName" (stageName req))
  (app (check_uri "restApiId" (restApiId req))
  (app (check_uri "stageName" (stageName req))
       (check_uri "exportType" (Some (exportType req)))))).

(** [errors.join('\n* ')], each error printed as [code: message]. *)
Fixpoint join_errors (es : list AWSError) : string :=
  match es with
  | [] => EmptyString
  | [e] => err_code e ++ ": " ++ err_message e
  | e :: es' => err_code e ++ ": " ++ err_message e ++ nl ++ "* " ++ join_errors es'
  end.

(** [ParamValidator.validate]: one error is thrown as is, several are
    wrapped in [MultipleValidationErrors]. *)
Definition validation_error (es : list AWSError) : option AWSError :=
  match es with
  | [] => None
  | [e] => Some e
  | _ => Some (mkAWSError "MultipleValidationErrors"
                 ("There were " ++ number_to_string (Z.of_nat (List.length es)) ++
                  " validation errors:" ++ nl ++ "* " ++ join_errors es))
  end.

Definition throttled_codes : list string :=
  ["ProvisionedThroughputExceededException"; "Throttling"; "ThrottlingException";
   "RequestLimitExceeded"; "RequestThrottled"; "RequestThrottledException";
   "TooManyRequestsException"; "TransactionInProgressException"; "EC2ThrottledException"].

(** [Service.throttledError]. *)
Definition throttledError (status : option Z) (e : AWSError) : bool :=
  match status with Some s => Z.eqb s 429 | None => false end ||
  existsb (String.eqb (err_code e)) throttled_codes.

(** [Service.retryableError]: time-outs, networking errors, expired
    credentials, throttling and 5xx answers. *)
Definition retryableError (status : option Z) (e : AWSError) : bool :=
  String.eqb (err_code e) "TimeoutError" || String.eqb (err_code e) "NetworkingError" ||
  String.eqb (err_code e) "ExpiredTokenException" || throttledError status e ||
  match status with Some s => Z.leb 500 s | None => false end.

(** Sending attempt [n] with [left] retries left ([maxRetries - retryCount]):
    the requests sent and what the call back receives. *)
Fixpoint send_request (left n : nat) (server : nat -> GetExportRequest -> http_answer)
  (req : GetExportRequest) : list GetExportRequest * sdk_result :=
  match server n req with
  | HttpOk d => ([req], SdkOk d)
  | HttpErr st e =>
      match left with
      | S left' =>
          if retryableError st e then
            let '(rs, r) := send_request left' (S n) server req in (req :: rs, r)
          else ([req], SdkErr e)
      | O => ([req], SdkErr e)
      end
  end.

(** One [client.getExport(req, cb)]: the HTTP requests it sends, and the
    result [cb] is called with. *)
Definition aws_getExport (server : nat -> GetExportRequest -> http_answer)
  (req : GetExportRequest) : list GetExportRequest * sdk_result :=
  match validation_error (param_errors req) with
  | Some e => ([], SdkErr e)
  | None => send_request maxRetries 0 server req
  end.

Definition sdk_outcome (server : nat -> GetExportRequest -> http_answer)
  (req : GetExportRequest) : sdk_result :=
  snd (aws_getExport server req).

(** The handler with the real SDK client in front of API Gateway. *)
Definition handler_aws (event : APIGatewayProxyEventV2) (pe : env)
  (server : nat -> GetExportRequest -> http_answer) : list effect :=
  handler event pe (sdk_outcome server).

(** The HTTP requests behind a trace: each [client.getExport] call expands
    to the requests the SDK sends for it. *)
Fixpoint http_requests (server : nat -> GetExportRequest -> http_answer) (tr : list effect)
  : list (string * GetExportRequest) :=
  match tr with
  | [] => []
  | GetExport region req :: tr' =>
      app (map (pair region) (fst (aws_getExport server req))) (http_requests server tr')
  | _ :: tr' => http_requests server tr'
  end.

(** The HTTP requests one handler run sends to API Gateway. *)
Definition handler_http (event : APIGatewayProxyEventV2) (pe : env)
  (server : nat -> GetExportRequest -> http_answer) : list (string * GetExportRequest) :=
  http_requests server (handler_aws event pe server).

Definition http_answer_result (a : http_answer) : sdk_result :=
  match a with HttpOk d => SdkOk d | HttpErr _ e => SdkErr e end.




Definition bad_request_server : nat -> GetExportRequest -> http_answer :=
  fun _ _ => HttpErr (Some 400) (mkAWSError "BadRequestException" "Invalid API identifier").

Definition env_empty_id : env := [("restApiId", EmptyString); ("stage", "prod")].

(** A Lambda environment with the variables the runtime adds per invocation. *)
Definition env_stack_traced : env :=
  [("_X_AMZN_TRACE_ID", "Root=1-65f0c2a1-0123456789abcdef01234567;Sampled=0");
   ("AWS_NODEJS_CONNECTION_REUSE_ENABLED", "1");
   ("restApiId", "dekq8mivw9"); ("stage", "prod"); ("extensions", "documentation")].

(** * Examples *)

Example utf8_decode_ex1 : utf8_decode [0x68; 0xC3; 0xA9; 0xE2; 0x82; 0xAC; 0xF0; 0x9F; 0x98; 0x80]
  = [0x68; 0xE9; 0x20AC; 0x1F600].
Proof. reflexivity. Qed.

Example utf8_decode_ex2 : utf8_decode [0xFF; 0xE0; 0x41] = [0xFFFD; 0xFFFD; 0x41].
Proof. reflexivity. Qed.

Example utf8_encode_ex : utf8_encode [0x68; 0xE9; 0x20AC; 0x1F600]
  = [0x68; 0xC3; 0xA9; 0xE2; 0x82; 0xAC; 0xF0; 0x9F; 0x98; 0x80].
Proof. reflexivity. Qed.

Example handler_ok_ex :
  handler ev0 env_stack (fun _ => SdkOk (mkGetExportResponse None None (Some [0x7B; 0x7D]))) =
  [GetExport "eu-west-1" (mkGetExportRequest (Some "dekq8mivw9") (Some "prod") "oas30"
                            [("extensions", "documentation")]);
   CallbackResult (mkResult 200 [("Access-Control-Allow-Origin", "*")] [0x7B; 0x7D])].
Proof. reflexivity. Qed.

Example handler_err_ex :
  handler ev0 env_stack (fun _ => SdkErr (mkAWSError "NotFoundException" "Invalid stage")) =
  [GetExport "eu-west-1" (getExportParams env_stack);
   CallbackError (mkAWSError "NotFoundException" "Invalid stage");
   Throw null_body_error].
Proof. reflexivity. Qed.

Example number_to_string_ex : number_to_string 1700000000123 = "1700000000123".
Proof. reflexivity. Qed.

Example toISOString_ex : toISOString 1700000000123 = "2023-11-14T22:13:20.123Z".
Proof. reflexivity. Qed.

Example toISOString_ex2 : toISOString (-1) = "1969-12-31T23:59:59.999Z".
Proof. reflexivity. Qed.

Example toISOString_ex3 : toISOString 0 = "1970-01-01T00:00:00.000Z".
Proof. reflexivity. Qed.

Example version_value_ex : version_value (number_to_string (-42)) = -42.
Proof. reflexivity. Qed.

(** ** Arithmetic facts about the bit operations of the codec *)

Lemma land_ones_low (k a y : Z) :
  0 <= k -> 0 <= y < 2 ^ k -> Z.land (a * 2 ^ k + y) (Z.ones k) = y.
Proof.
  intros Hk Hy. rewrite Z.land_ones by lia.
  rewrite Z.add_comm, Z.mod_add by (apply Z.pow_nonzero; lia).
  apply Z.mod_small; lia.
Qed.

Lemma lor_mul_pow2 (k x y : Z) :
  0 <= k -> 0 <= y < 2 ^ k -> Z.lor (x * 2 ^ k) y = x * 2 ^ k + y.
Proof.
  intros Hk Hy.
  assert (Hl : Z.land (x * 2 ^ k) y = 0).
  { apply Z.bits_inj'. intros m Hm. rewrite Z.land_spec, Z.bits_0.
    destruct (Z.lt_ge_cases m k) as [Hlt | Hge].
    - rewrite <- Z.shiftl_mul_pow2 by lia.
      rewrite Z.shiftl_spec_low by lia. reflexivity.
    - rewrite <- (Z.mod_small y (2 ^ k)) by lia.
      rewrite Z.mod_pow2_bits_high by lia. apply andb_false_r. }
  pose proof (Z.add_lor_land (x * 2 ^ k) y) as H. lia.
Qed.

Ltac zbool :=
  repeat match goal with
  | |- context [?x <=? ?y] =>
      first [ rewrite (proj2 (Z.leb_le x y)) by lia
            | rewrite (proj2 (Z.leb_gt x y)) by lia ]
  | |- context [?x <? ?y] =>
      first [ rewrite (proj2 (Z.ltb_lt x y)) by lia
            | rewrite (proj2 (Z.ltb_ge x y)) by lia ]
  | |- context [?x =? ?y] =>
      first [ rewrite (proj2 (Z.eqb_eq x y)) by lia
            | rewrite (proj2 (Z.eqb_neq x y)) by lia ]
  end; cbn [andb orb].

Ltac pow_num :=
  repeat match goal with
  | |- context [2 ^ ?k] =>
      let v := eval vm_compute in (2 ^ k) in change (2 ^ k) with v
  end.

Ltac zlia := pow_num; Z.div_mod_to_equations; lia.

Lemma enc_cp2 (c : Z) : 0x80 <= c < 0x800 ->
  utf8_encode_cp c = [0xC0 + c / 64; 0x80 + c mod 64].
Proof.
  intros H. unfold utf8_encode_cp. zbool.
  rewrite Z.shiftr_div_pow2 by lia.
  change 0x3F with (Z.ones 6). rewrite Z.land_ones by lia.
  change 0xC0 with (6 * 2 ^ 5). change 0x80 with (2 * 2 ^ 6).
  rewrite !lor_mul_pow2 by zlia.
  pow_num. reflexivity.
Qed.

Lemma enc_cp3 (c : Z) : 0x800 <= c < 0x10000 ->
  utf8_encode_cp c = [0xE0 + c / 4096; 0x80 + (c / 64) mod 64; 0x80 + c mod 64].
Proof.
  intros H. unfold utf8_encode_cp. zbool.
  rewrite !Z.shiftr_div_pow2 by lia.
  change 0x3F with (Z.ones 6). rewrite !Z.land_ones by lia.
  change 0xE0 with (14 * 2 ^ 4). change 0x80 with (2 * 2 ^ 6).
  rewrite !lor_mul_pow2 by zlia.
  pow_num. reflexivity.
Qed.

Lemma enc_cp4 (c : Z) : 0x10000 <= c <= 0x10FFFF ->
  utf8_encode_cp c = [0xF0 + c / 262144; 0x80 + (c / 4096) mod 64;
                      0x80 + (c / 64) mod 64; 0x80 + c mod 64].
Proof.
  intros H. unfold utf8_encode_cp. zbool.
  rewrite !Z.shiftr_div_pow2 by lia.
  change 0x3F with (Z.ones 6). rewrite !Z.land_ones by lia.
  change 0xF0 with (30 * 2 ^ 3). change 0x80 with (2 * 2 ^ 6).
  rewrite !lor_mul_pow2 by zlia.
  pow_num. reflexivity.
Qed.

Lemma land_add_low (k m y : Z) :
  0 <= k -> 0 <= y < 2 ^ k -> m mod 2 ^ k = 0 -> Z.land (m + y) (Z.ones k) = y.
Proof.
  intros Hk Hy Hm.
  assert (Hp : 2 ^ k <> 0) by (apply Z.pow_nonzero; lia).
  rewrite (Z.div_mod m (2 ^ k)) by exact Hp. rewrite Hm, Z.add_0_r.
  rewrite Z.mul_comm. apply land_ones_low; assumption.
Qed.

Lemma lead2 (a : Z) : 2 <= a < 32 ->
  u_lead (0xC0 + a) = ([], mkU 1 0 a 0x80 0xBF).
Proof.
  intros H. unfold u_lead. zbool.
  change 0x1F with (Z.ones 5). rewrite land_add_low by zlia. reflexivity.
Qed.

Lemma lead3 (a : Z) : 0 <= a < 16 ->
  u_lead (0xE0 + a) =
  ([], mkU 2 0 a (if a =? 0 then 0xA0 else 0x80) (if a =? 13 then 0x9F else 0xBF)).
Proof.
  intros H. unfold u_lead. zbool.
  change 0xF with (Z.ones 4). rewrite land_add_low by zlia.
  f_equal. f_equal.
  - destruct (Z.eqb_spec a 0); zbool; reflexivity.
  - destruct (Z.eqb_spec a 13); zbool; reflexivity.
Qed.

Lemma lead4 (a : Z) : 0 <= a <= 4 ->
  u_lead (0xF0 + a) =
  ([], mkU 3 0 a (if a =? 0 then 0x90 else 0x80) (if a =? 4 then 0x8F else 0xBF)).
Proof.
  intros H. unfold u_lead. zbool.
  change 0x7 with (Z.ones 3). rewrite land_add_low by zlia.
  f_equal. f_equal.
  - destruct (Z.eqb_spec a 0); zbool; reflexivity.
  - destruct (Z.eqb_spec a 4); zbool; reflexivity.
Qed.

(** One continuation byte [0x80 + y] accepted by the current boundaries. *)
Lemma cont_step (st : utf8_state) (y : Z) (rest : list Z) :
  needed st <> 0 -> 0 <= y < 64 -> lower st <= 0x80 + y <= upper st ->
  utf8_go st (0x80 + y :: rest) =
  if seen st + 1 =? needed st then (code_point st * 64 + y) :: utf8_go u_init rest
  else utf8_go (mkU (needed st) (seen st + 1) (code_point st * 64 + y) 0x80 0xBF) rest.
Proof.
  intros Hn Hy Hb. cbn [utf8_go]. zbool.
  change 0x3F with (Z.ones 6). rewrite land_add_low by zlia.
  rewrite Z.shiftl_mul_pow2 by lia. rewrite lor_mul_pow2 by zlia.
  reflexivity.
Qed.

Lemma go_init_cons (b : Z) (rest : list Z) :
  utf8_go u_init (b :: rest) = let '(out, st') := u_lead b in (out ++ utf8_go st' rest)%list.
Proof. reflexivity. Qed.

Ltac cont_rw :=
  rewrite cont_step by (cbn [needed lower upper]; zbool; zlia);
  cbn [needed seen code_point]; zbool.

(** Decoding the encoding of one scalar value yields that value and leaves
    the decoder in its initial state. *)
Lemma decode_encode_cp (c : Z) (rest : list Z) : scalar_value c ->
  utf8_go u_init (utf8_encode_cp c ++ rest)%list = c :: utf8_go u_init rest.
Proof.
  intros Hc. unfold scalar_value in Hc.
  destruct (Z.ltb_spec c 0x80) as [H1 | H1].
  - unfold utf8_encode_cp. zbool. cbn [app utf8_go needed u_init]. zbool.
    unfold u_lead. zbool. reflexivity.
  - destruct (Z.ltb_spec c 0x800) as [H2 | H2].
    + rewrite enc_cp2 by lia. cbn [app]. rewrite go_init_cons.
      rewrite lead2 by zlia. cbn [app].
      cont_rw. f_equal. zlia.
    + destruct (Z.ltb_spec c 0x10000) as [H3 | H3].
      * rewrite enc_cp3 by lia. cbn [app]. rewrite go_init_cons.
        rewrite lead3 by zlia. cbn [app].
        rewrite cont_step.
        -- cbn [needed seen code_point]. zbool. cont_rw. f_equal. zlia.
        -- cbn [needed]. lia.
        -- zlia.
        -- cbn [lower upper].
           destruct (Z.eqb_spec (c / 4096) 0); destruct (Z.eqb_spec (c / 4096) 13);
             zlia.
      * rewrite enc_cp4 by lia. cbn [app]. rewrite go_init_cons.
        rewrite lead4 by zlia. cbn [app].
        rewrite cont_step.
        -- cbn [needed seen code_point]. zbool. cont_rw. cont_rw.
           f_equal. zlia.
        -- cbn [needed]. lia.
        -- zlia.
        -- cbn [lower upper].
           destruct (Z.eqb_spec (c / 262144) 0); destruct (Z.eqb_spec (c / 262144) 4);
             zlia.
Qed.

Lemma decode_encode (cs : list Z) : Forall scalar_value cs ->
  utf8_decode (utf8_encode cs) = cs.
Proof.
  unfold utf8_decode, utf8_encode. induction 1 as [| c cs Hc _ IH].
  - reflexivity.
  - cbn [flat_map]. rewrite decode_encode_cp by exact Hc. f_equal. exact IH.
Qed.


Lemma encode_decode_encode (cs : list Z) : Forall scalar_value cs ->
  utf8_encode (utf8_decode (utf8_encode cs)) = utf8_encode cs.
Proof. intros H. rewrite decode_encode by exact H. reflexivity. Qed.

(** Well-formed UTF-8: the encoding of a sequence of scalar values. *)
Definition well_formed_utf8 (d : list Z) : Prop :=
  exists cs, Forall scalar_value cs /\ d = utf8_encode cs.

(** * Export handler claims *)

(** C1 (as stated): a successful export returns exactly the platform's
    document [D].  Refuted: the body goes through
    [Buffer.toString('utf8')], so the byte [0xFF] comes back as U+FFFD,
    sent as the three bytes EF BF BD. *)
Lemma C1_utf8_lossy_counterexample :
  handler ev0 env_stack (fun _ => SdkOk (mkGetExportResponse None None (Some [0xFF]))) =
  [GetExport "eu-west-1" (getExportParams env_stack);
   CallbackResult (mkResult 200 cors_headers [0xFFFD])] /\
  response_bytes (mkResult 200 cors_headers [0xFFFD]) = [0xEF; 0xBF; 0xBD] /\
  response_bytes (mkResult 200 cors_headers [0xFFFD]) <> [0xFF].
Proof. split; [reflexivity | split; [reflexivity | discriminate]]. Qed.

(** C1 (amended): when the platform answers with a document [D] that is
    well-formed UTF-8, the handler makes its one platform call and then
    calls back exactly once, with status 200, the single header
    [Access-Control-Allow-Origin: *], and a body whose UTF-8 bytes are
    exactly [D]. *)
Theorem handler_success_passthrough (ev : APIGatewayProxyEventV2) (pe : env)
  (platform : GetExportRequest -> sdk_result) (d : GetExportResponse) (D : list Z) :
  platform (getExportParams pe) = SdkOk d ->
  body d = Some D ->
  well_formed_utf8 D ->
  exists r,
    handler ev pe platform = [GetExport "eu-west-1" (getExportParams pe); CallbackResult r] /\
    statusCode r = 200 /\ headers r = [("Access-Control-Allow-Origin", "*")] /\
    response_bytes r = D.
Proof.
  intros Hp Hb [cs [Hcs ->]].
  exists (mkResult 200 cors_headers (utf8_decode (utf8_encode cs))).
  unfold handler. rewrite Hp. cbn [sdk_callback_args export_callback app].
  rewrite Hb. split; [reflexivity |].
  split; [reflexivity | split; [reflexivity |]].
  unfold response_bytes. cbn [res_body]. apply encode_decode_encode. exact Hcs.
Qed.

Lemma handler_success_passthrough_witness :
  (exists r,
    handler ev0 env_stack (fun _ => SdkOk (mkGetExportResponse None None (Some [0x7B; 0x7D]))) =
    [GetExport "eu-west-1" (getExportParams env_stack); CallbackResult r] /\
    statusCode r = 200 /\ headers r = [("Access-Control-Allow-Origin", "*")] /\
    response_bytes r = [0x7B; 0x7D]).
Proof.
  apply (handler_success_passthrough ev0 env_stack
           (fun _ => SdkOk (mkGetExportResponse None None (Some [0x7B; 0x7D])))
           (mkGetExportResponse None None (Some [0x7B; 0x7D])) [0x7B; 0x7D]).
  - reflexivity.
  - reflexivity.
  - exists [0x7B; 0x7D]. split.
    + repeat constructor; unfold scalar_value; lia.
    + reflexivity.
Defined.


(** C4: on a platform error the callback does not stop after reporting the
    error: it goes on to read [data.body] with [data = null] and throws a
    TypeError. *)
Theorem handler_error_reads_null_body (ev : APIGatewayProxyEventV2) (pe : env)
  (platform : GetExportRequest -> sdk_result) (e : AWSError) :
  platform (getExportParams pe) = SdkErr e ->
  handler ev pe platform =
  [GetExport "eu-west-1" (getExportParams pe); CallbackError e; Throw null_body_error].
Proof. intros Hp. unfold handler. rewrite Hp. reflexivity. Qed.

Lemma handler_error_reads_null_body_witness :
  handler ev1 env_stack (fun _ => SdkErr (mkAWSError "NotFoundException" "Invalid stage identifier")) =
  [GetExport "eu-west-1" (getExportParams env_stack);
   CallbackError (mkAWSError "NotFoundException" "Invalid stage identifier");
   Throw null_body_error].
Proof. apply handler_error_reads_null_body. reflexivity. Defined.

(** C9: every platform request of the handler asks for [oas30] with
    [extensions = documentation], whatever the environment holds (the stack
    sets [extensions] to [apigateway], which the handler never reads). *)
Theorem handler_export_format_fixed (ev : APIGatewayProxyEventV2) (pe : env)
  (platform : GetExportRequest -> sdk_result) (region : string) (req : GetExportRequest) :
  In (GetExport region req) (handler ev pe platform) ->
  exportType req = "oas30" /\ parameters req = [("extensions", "documentation")].
Proof.
  unfold handler. destruct (platform (getExportParams pe)) as [e | d]; cbn.
  - intros [H | [H | [H | []]]]; try discriminate. inversion H; subst. split; reflexivity.
  - destruct (body d); cbn.
    + intros [H | [H | []]]; try discriminate. inversion H; subst. split; reflexivity.
    + intros [H | [H | []]]; try discriminate. inversion H; subst. split; reflexivity.
Qed.

Lemma handler_export_format_fixed_witness :
  exportType (getExportParams env_stack) = "oas30" /\
  parameters (getExportParams env_stack) = [("extensions", "documentation")].
Proof.
  apply (handler_export_format_fixed ev0 env_stack
           (fun _ => SdkOk (mkGetExportResponse None None (Some [0x7B; 0x7D]))) "eu-west-1").
  left. reflexivity.
Defined.

(** * Stack lemmas *)

Lemma digit_char_value (d : Z) : 0 <= d < 10 ->
  Z.of_nat (nat_of_ascii (digit_char d)) - 48 = d.
Proof.
  intros H. unfold digit_char. rewrite nat_ascii_embedding by lia. lia.
Qed.

Lemma digits_aux_S (f : nat) (n : Z) (acc : string) :
  digits_aux (S f) n acc =
  if n <? 10 then String (digit_char (n mod 10)) acc
  else digits_aux f (n / 10) (String (digit_char (n mod 10)) acc).
Proof. reflexivity. Qed.

Lemma digits_aux_parse (f : nat) (n : Z) (acc : string) :
  0 <= n < 10 ^ Z.of_nat (S f) ->
  parse_from 0 (digits_aux (S f) n acc) = parse_from n acc.
Proof.
  revert n acc. induction f as [| f IH]; intros n acc Hn; rewrite digits_aux_S.
  - change (10 ^ Z.of_nat 1) with 10 in Hn.
    rewrite (proj2 (Z.ltb_lt n 10)) by lia. cbn [parse_from].
    rewrite digit_char_value by (apply Z.mod_pos_bound; lia).
    rewrite Z.mod_small by lia. f_equal; lia.
  - destruct (Z.ltb_spec n 10) as [Hlt | Hge].
    + cbn [parse_from]. rewrite digit_char_value by (apply Z.mod_pos_bound; lia).
      rewrite Z.mod_small by lia. f_equal; lia.
    + rewrite IH.
      * cbn [parse_from]. rewrite digit_char_value by (apply Z.mod_pos_bound; lia).
        f_equal. pose proof (Z.div_mod n 10). lia.
      * rewrite Nat2Z.inj_succ, Z.pow_succ_r in Hn by lia.
        split; [apply Z.div_pos; lia | apply Z.div_lt_upper_bound; lia].
Qed.

Lemma digits_aux_head (f : nat) (n : Z) (acc : string) : 0 <= n ->
  exists d r, digits_aux (S f) n acc = String (digit_char d) r /\ 0 <= d < 10.
Proof.
  revert n acc. induction f as [| f IH]; intros n acc Hn; rewrite digits_aux_S.
  - destruct (n <? 10);
      exists (n mod 10), acc; (split; [reflexivity | apply Z.mod_pos_bound; lia]).
  - destruct (n <? 10).
    + exists (n mod 10), acc. split; [reflexivity | apply Z.mod_pos_bound; lia].
    + apply IH. apply Z.div_pos; lia.
Qed.

Lemma digit_char_not_minus (d : Z) : 0 <= d < 10 -> digit_char d <> "-"%char.
Proof.
  intros H E. apply (f_equal nat_of_ascii) in E. unfold digit_char in E.
  rewrite nat_ascii_embedding in E by lia. cbn in E. lia.
Qed.

(** A version id reads back as the time it was made from. *)
Lemma version_value_number_to_string (t : Z) : Z.abs t < 10 ^ 21 ->
  version_value (number_to_string t) = t.
Proof.
  intros Ht. change (10 ^ 21) with 1000000000000000000000 in Ht.
  unfold number_to_string. destruct (Z.ltb_spec t 0) as [Hneg | Hpos].
  - change (version_value (String "-"%char (digits_aux 21 (- t) EmptyString)))
      with (- parse_from 0 (digits_aux 21 (- t) EmptyString)).
    change 21%nat with (S 20). rewrite digits_aux_parse.
    + cbn [parse_from]. lia.
    + change (10 ^ Z.of_nat (S 20)) with 1000000000000000000000. lia.
  - change 21%nat with (S 20).
    destruct (digits_aux_head 20 t EmptyString Hpos) as [d [r [Hs Hd]]].
    assert (Hv : version_value (digits_aux (S 20) t EmptyString)
                 = parse_from 0 (digits_aux (S 20) t EmptyString)).
    { rewrite Hs. unfold version_value.
      destruct (digit_char d) as [b0 b1 b2 b3 b4 b5 b6 b7] eqn:Ec.
      pose proof (digit_char_not_minus d Hd) as Hm. rewrite Ec in Hm.
      destruct b0, b1, b2, b3, b4, b5, b6, b7; try reflexivity.
      exfalso. apply Hm. reflexivity. }
    rewrite Hv, digits_aux_parse.
    + reflexivity.
    + change (10 ^ Z.of_nat (S 20)) with 1000000000000000000000. lia.
Qed.

Lemma number_to_string_inj (t1 t2 : Z) :
  Z.abs t1 < 10 ^ 21 -> Z.abs t2 < 10 ^ 21 ->
  number_to_string t1 = number_to_string t2 -> t1 = t2.
Proof.
  intros H1 H2 E.
  rewrite <- (version_value_number_to_string t1 H1), <- (version_value_number_to_string t2 H2).
  rewrite E. reflexivity.
Qed.

Lemma valid_time_bound (t : Z) : valid_time t -> Z.abs t < 10 ^ 21.
Proof.
  unfold valid_time. intros H. change (10 ^ 21) with 1000000000000000000000. lia.
Qed.

Lemma snapshots_eq (now : Z) :
  snapshots now =
  [mkSnapshot (number_to_string now) ("Documentation generated at " ++ toISOString now) now].
Proof. reflexivity. Qed.

Lemma strip_prefix_append (p s : string) : strip_prefix p (p ++ s) = Some s.
Proof.
  induction p as [| a p IH]; cbn.
  - reflexivity.
  - rewrite Ascii.eqb_refl. exact IH.
Qed.

Lemma stack_artifacts (now : Z) :
  deploy_descriptions (ApiDocsStack now) = ["Description of deployment at " ++ toISOString now] /\
  doc_versions (ApiDocsStack now) =
    [(number_to_string now, "Documentation generated at " ++ toISOString now)] /\
  hd_error (doc_parts (ApiDocsStack now)) =
    Some ("api-docs", loc "API" None None None, api_info (toISOString now)).
Proof. repeat split. Qed.

Lemma api_info_texts (iso : string) :
  info_text (api_info iso) "description" = Some ("Documentation description generated at " ++ iso) /\
  info_text (api_info iso) "summary" = Some ("Documentation summary generated at " ++ iso).
Proof. split; reflexivity. Qed.

Lemma doc_parts_eq (now : Z) :
  doc_parts (ApiDocsStack now) =
  [("api-docs", loc "API" None None None, api_info (toISOString now));
   ("some-request-authorizer-doc", loc "AUTHORIZER" (Some "SomeAuthorizer") None None,
    JObj [("summary", JStr "Some authorizer summary");
          ("description", JStr "Some authorizer description");
          ("schema", JObj [("type", JStr "string"); ("format", JStr "uuid");
             ("example", JStr "10c89c8b-fb09-430d-bfc3-3138736598bf")])]);
   ("ListTodo.Header.Authorization",
    loc "REQUEST_HEADER" (Some "Authorization") (Some "/todo") (Some "GET"),
    JObj [("description", JStr "Authorization header description");
          ("summary", JStr "Authorization header summary");
          ("x-description", JStr "Authorization header x-description");
          ("x-summary", JStr "Authorization header x-summary")]);
   ("todoIdDocs", loc "PATH_PARAMETER" (Some "todoId") (Some "/todo") (Some "GET"),
    JObj [("description", JStr "The id of the todo");
          ("format", JStr "uuid");
          ("example", JStr "01d64dee-e83d-4d26-b15a-5a1cd072b666");
          ("summary", JStr "Sommary of the id of the todo");
          ("schema", JObj [("type", JStr "string"); ("format", JStr "uuid");
             ("example", JStr "3908c6bb-941a-4c35-9a45-c6034006e8c5")])])].
Proof. reflexivity. Qed.

(** * Stack claims *)

(** C5: snapshots made at two creation times [t1 < t2] (whatever their
    descriptions) get distinct version ids and distinct creation times; the
    version id is [now.getTime()] written in decimal, so its numeric value is
    the creation time and grows with it. *)
Theorem snapshot_ids_distinct_increasing (t1 t2 : Z) :
  valid_time t1 -> valid_time t2 -> t1 < t2 ->
  exists s1 s2,
    snapshots t1 = [s1] /\ snapshots t2 = [s2] /\
    versionId s1 <> versionId s2 /\ createdAt s1 <> createdAt s2 /\
    version_value (versionId s1) = t1 /\ version_value (versionId s2) = t2 /\
    version_value (versionId s1) < version_value (versionId s2).
Proof.
  intros H1 H2 Hlt. rewrite !snapshots_eq.
  pose proof (valid_time_bound t1 H1) as B1. pose proof (valid_time_bound t2 H2) as B2.
  eexists; eexists; split; [reflexivity | split; [reflexivity |]]. cbn [versionId createdAt].
  rewrite !version_value_number_to_string by assumption.
  split; [| split; [lia | split; [reflexivity | split; [reflexivity | lia]]]].
  intros E. apply number_to_string_inj in E; [lia | assumption | assumption].
Qed.

Lemma snapshot_ids_distinct_increasing_witness :
  exists s1 s2,
    snapshots 1700000000000 = [s1] /\ snapshots 1700000000001 = [s2] /\
    versionId s1 <> versionId s2 /\ createdAt s1 <> createdAt s2 /\
    version_value (versionId s1) = 1700000000000 /\
    version_value (versionId s2) = 1700000000001 /\
    version_value (versionId s1) < version_value (versionId s2).
Proof.
  apply snapshot_ids_distinct_increasing; unfold valid_time; lia.
Defined.

(** C6: one registration pass embeds one timestamp, [now.toISOString()] of
    the single [now], in the deployment description, the documentation
    version description and the API part's description and summary. *)
Theorem pass_shares_one_timestamp (now : Z) :
  exists ts d1 v d2 p,
    ts = toISOString now /\
    deploy_descriptions (ApiDocsStack now) = [d1] /\
    doc_versions (ApiDocsStack now) = [(v, d2)] /\
    hd_error (doc_parts (ApiDocsStack now)) = Some ("api-docs", loc "API" None None None, p) /\
    strip_prefix "Description of deployment at " d1 = Some ts /\
    strip_prefix "Documentation generated at " d2 = Some ts /\
    opt_bind (strip_prefix "Documentation description generated at ") (info_text p "description")
      = Some ts /\
    opt_bind (strip_prefix "Documentation summary generated at ") (info_text p "summary")
      = Some ts.
Proof.
  destruct (stack_artifacts now) as [Hd [Hv Hp]].
  do 5 eexists. split; [reflexivity |].
  split; [exact Hd |]. split; [exact Hv |]. split; [exact Hp |].
  split; [apply strip_prefix_append |]. split; [apply strip_prefix_append |].
  destruct (api_info_texts (toISOString now)) as [Hi1 Hi2].
  cbn [opt_bind]. rewrite Hi1, Hi2.
  split; apply strip_prefix_append.
Qed.

(** C7 (as stated): location keys outside the table are rejected.
    Refuted: [CfnDocumentationPart] adds an [API] part that carries a name,
    which the table rejects, like any other. *)
Lemma C7_no_location_check_counterexample :
  spec_location_ok (loc "API" (Some "todoId") None None) = false /\
  cfn_documentation_part "api-docs" (loc "API" (Some "todoId") None None) (JObj []) [] =
  [CDocPart "api-docs" (loc "API" (Some "todoId") None None) (JObj [])].
Proof. split; reflexivity. Qed.

(** C7 (amended): registering a documentation part checks nothing and adds
    the part with its location as given; the parts the stack registers do
    follow the table (API: none; AUTHORIZER: name; REQUEST_HEADER and
    PATH_PARAMETER: name, path and method), and no RESOURCE part is
    registered. *)
Theorem doc_parts_follow_table (now : Z) :
  (forall id l p s, cfn_documentation_part id l p s = app s [CDocPart id l p]) /\
  Forall (fun '(_, l, _) => spec_location_ok l = true) (doc_parts (ApiDocsStack now)) /\
  map (fun '(_, l, _) => loc_type l) (doc_parts (ApiDocsStack now)) =
    [Some "API"; Some "AUTHORIZER"; Some "REQUEST_HEADER"; Some "PATH_PARAMETER"].
Proof.
  split; [reflexivity |]. rewrite doc_parts_eq. split.
  - repeat constructor.
  - reflexivity.
Qed.

(** C8 (as stated): a PATH_PARAMETER key without [method] fails locally
    before any platform call.  Refuted: the part is added to the stack,
    and so submitted to the platform, unchanged. *)
Lemma C8_missing_method_counterexample :
  spec_location_ok (loc "PATH_PARAMETER" (Some "todoId") (Some "/todo") None) = false /\
  cfn_documentation_part "todoIdDocs" (loc "PATH_PARAMETER" (Some "todoId") (Some "/todo") None)
    (JObj [("description", JStr "The id of the todo")]) [] =
  app []
    [CDocPart "todoIdDocs" (loc "PATH_PARAMETER" (Some "todoId") (Some "/todo") None)
       (JObj [("description", JStr "The id of the todo")])].
Proof. split; reflexivity. Qed.

(** C8 (amended): registration performs no local check: a PATH_PARAMETER
    location without [method] (which the spec's table rejects) is added to
    the stack as given, so any rejection is left to the platform. *)
Theorem path_parameter_without_method_registered (id : string) (name path sc : option string)
  (p : json) (s : stack) :
  spec_location_ok (mkLocation (Some "PATH_PARAMETER") name path None sc) = false /\
  cfn_documentation_part id (mkLocation (Some "PATH_PARAMETER") name path None sc) p s =
  app s [CDocPart id (mkLocation (Some "PATH_PARAMETER") name path None sc) p].
Proof.
  split; [| reflexivity].
  unfold spec_location_ok. cbn [loc_type loc_method].
  change (spec_required_fields "PATH_PARAMETER") with (Some (true, true, true)).
  cbn [is_present]. rewrite !andb_false_r. reflexivity.
Qed.

(** * Further properties of the handler and the stack *)

Ltac pow64 :=
  repeat match goal with
  | |- context [64 ^ ?k] =>
      let v := eval vm_compute in (64 ^ k) in change (64 ^ k) with v
  | H : context [64 ^ ?k] |- _ =>
      let v := eval vm_compute in (64 ^ k) in change (64 ^ k) with v in H
  end.

Lemma range_ok_mem (lo hi x : Z) : range_ok lo hi -> lo <= x <= hi -> scalar_value x.
Proof. unfold range_ok, scalar_value. lia. Qed.

Lemma range_ok_sub (lo hi lo' hi' : Z) :
  range_ok lo hi -> lo <= lo' -> hi' <= hi -> range_ok lo' hi'.
Proof. unfold range_ok. lia. Qed.

Lemma replacement_scalar : scalar_value replacement.
Proof. unfold scalar_value, replacement. lia. Qed.

Lemma u_init_inv : utf8_inv u_init.
Proof. left. reflexivity. Qed.

(** Every lead byte emits scalar values and leaves an invariant state. *)
Lemma lead_inv (b : Z) : is_byte b ->
  Forall scalar_value (fst (u_lead b)) /\ utf8_inv (snd (u_lead b)).
Proof.
  unfold is_byte. intros Hb.
  destruct (Z.leb_spec b 0x7F).
  { unfold u_lead. zbool. split; [constructor; [unfold scalar_value; lia | constructor] | exact u_init_inv]. }
  destruct (Z.ltb_spec b 0xC2).
  { unfold u_lead. zbool. split; [constructor; [exact replacement_scalar | constructor] | exact u_init_inv]. }
  destruct (Z.leb_spec b 0xDF).
  { replace b with (0xC0 + (b - 0xC0)) by lia. rewrite lead2 by lia. cbn [fst snd].
    split; [constructor |]. right. exists 1. cbn [needed seen code_point lower upper].
    pow64. split; [lia |]. split; [lia |]. split; [lia |]. split; [lia |]. split; [lia |].
    left. lia. }
  destruct (Z.leb_spec b 0xEF).
  { replace b with (0xE0 + (b - 0xE0)) by lia. rewrite lead3 by lia. cbn [fst snd].
    split; [constructor |]. right. exists 2. cbn [needed seen code_point lower upper].
    pow64.
    destruct (Z.eqb_spec (b - 0xE0) 0); destruct (Z.eqb_spec (b - 0xE0) 13);
      (split; [lia |]); (split; [lia |]); (split; [lia |]);
      (split; [lia |]); (split; [lia |]).
    - lia.
    - left. lia.
    - left. lia.
    - destruct (Z.ltb_spec (b - 0xE0) 13); [left | right]; lia. }
  destruct (Z.leb_spec b 0xF4).
  { replace b with (0xF0 + (b - 0xF0)) by lia. rewrite lead4 by lia. cbn [fst snd].
    split; [constructor |]. right. exists 3. cbn [needed seen code_point lower upper].
    pow64.
    destruct (Z.eqb_spec (b - 0xF0) 0); destruct (Z.eqb_spec (b - 0xF0) 4);
      (split; [lia |]); (split; [lia |]); (split; [lia |]);
      (split; [lia |]); (split; [lia |]); right; lia. }
  unfold u_lead. zbool.
  split; [constructor; [exact replacement_scalar | constructor] | exact u_init_inv].
Qed.

Lemma lead_go_scalar (b : Z) (rest : list Z) :
  is_byte b ->
  (forall st, utf8_inv st -> Forall scalar_value (utf8_go st rest)) ->
  Forall scalar_value (let '(out, st') := u_lead b in (out ++ utf8_go st' rest)%list).
Proof.
  intros Hb IH. destruct (lead_inv b Hb) as [Ho Hs].
  destruct (u_lead b) as [out st']. apply Forall_app. split; [exact Ho | apply IH; exact Hs].
Qed.

Lemma cont_value (cp b : Z) : 0x80 <= b <= 0xBF ->
  Z.lor (Z.shiftl cp 6) (Z.land b 0x3F) = cp * 64 + (b - 0x80).
Proof.
  intros Hb. change 0x3F with (Z.ones 6). rewrite Z.land_ones by lia.
  rewrite Z.shiftl_mul_pow2 by lia. rewrite lor_mul_pow2 by zlia. pow_num. zlia.
Qed.

(** From an invariant state, the decoder emits only scalar values, whatever
    bytes it reads. *)
Lemma utf8_go_scalar (bs : list Z) : forall st,
  Forall is_byte bs -> utf8_inv st -> Forall scalar_value (utf8_go st bs).
Proof.
  induction bs as [| b rest IH]; intros st Hbs Hinv.
  - cbn. destruct (needed st =? 0);
      [constructor | constructor; [exact replacement_scalar | constructor]].
  - inversion Hbs as [| ? ? Hb Hrest]; subst.
    pose proof (fun st => IH st Hrest) as IHr.
    cbn [utf8_go]. destruct (Z.eqb_spec (needed st) 0) as [Hn | Hn].
    + apply lead_go_scalar; assumption.
    + destruct ((b <? lower st) || (upper st <? b)) eqn:Eb.
      * constructor; [exact replacement_scalar | apply lead_go_scalar; assumption].
      * apply orb_false_iff in Eb as [E1 E2].
        apply Z.ltb_ge in E1. apply Z.ltb_ge in E2.
        destruct Hinv as [Hz | [r [Hr [Hrn [_ [Hlu [Hup Hrange]]]]]]]; [contradiction |].
        rewrite cont_value by lia.
        destruct (Z.eqb_spec (seen st + 1) (needed st)) as [Hs | Hs].
        -- constructor.
           ++ apply (range_ok_mem _ _ _ Hrange).
              assert (Hr1 : r = 1) by lia. rewrite Hr1 in Hrange |- *. pow64. lia.
           ++ apply IHr. exact u_init_inv.
        -- apply IHr. right. exists (r - 1). cbn [needed seen code_point lower upper].
           destruct Hr as [-> | [-> | ->]]; [lia | |];
             (split; [lia |]); (split; [lia |]); (split; [lia |]);
             (split; [lia |]); (split; [lia |]);
             pow64; (eapply range_ok_sub; [exact Hrange | lia | lia]).
Qed.

Lemma utf8_decode_scalar (bs : list Z) :
  Forall is_byte bs -> Forall scalar_value (utf8_decode bs).
Proof. intros H. apply utf8_go_scalar; [exact H | exact u_init_inv]. Qed.

(** X: whatever bytes the platform returns, the response body holds only
    Unicode scalar values (no lone surrogates), and the bytes sent to the
    caller decode back to that same body. *)
Theorem handler_body_always_valid_text (ev : APIGatewayProxyEventV2) (pe : env)
  (platform : GetExportRequest -> sdk_result) (d : GetExportResponse) (D : list Z) :
  platform (getExportParams pe) = SdkOk d ->
  body d = Some D ->
  Forall is_byte D ->
  exists r,
    handler ev pe platform = [GetExport "eu-west-1" (getExportParams pe); CallbackResult r] /\
    Forall scalar_value (res_body r) /\
    utf8_decode (response_bytes r) = res_body r.
Proof.
  intros Hp Hb HD. exists (mkResult 200 cors_headers (utf8_decode D)).
  unfold handler. rewrite Hp. cbn [sdk_callback_args export_callback app]. rewrite Hb.
  pose proof (utf8_decode_scalar D HD) as Hs.
  split; [reflexivity | split; [exact Hs |]].
  unfold response_bytes. cbn [res_body]. apply decode_encode. exact Hs.
Qed.

Lemma handler_body_always_valid_text_witness :
  exists r,
    handler ev0 env_stack (fun _ => SdkOk (mkGetExportResponse None None (Some [0xED; 0xA0; 0x80]))) =
    [GetExport "eu-west-1" (getExportParams env_stack); CallbackResult r] /\
    Forall scalar_value (res_body r) /\
    utf8_decode (response_bytes r) = res_body r.
Proof.
  apply (handler_body_always_valid_text ev0 env_stack
           (fun _ => SdkOk (mkGetExportResponse None None (Some [0xED; 0xA0; 0x80])))
           (mkGetExportResponse None None (Some [0xED; 0xA0; 0x80])) [0xED; 0xA0; 0x80]).
  - reflexivity.
  - reflexivity.
  - repeat constructor; unfold is_byte; lia.
Defined.

(** X: a successful export whose response has no body makes the handler
    throw in [Buffer.from(undefined)] without ever calling back. *)
Theorem handler_missing_body_throws (ev : APIGatewayProxyEventV2) (pe : env)
  (platform : GetExportRequest -> sdk_result) (d : GetExportResponse) :
  platform (getExportParams pe) = SdkOk d -> body d = None ->
  handler ev pe platform =
  [GetExport "eu-west-1" (getExportParams pe); Throw buffer_from_undefined_error].
Proof. intros Hp Hb. unfold handler. rewrite Hp. cbn. rewrite Hb. reflexivity. Qed.

Lemma handler_missing_body_throws_witness :
  handler ev0 env_stack (fun _ => SdkOk (mkGetExportResponse (Some "application/json") None None)) =
  [GetExport "eu-west-1" (getExportParams env_stack); Throw buffer_from_undefined_error].
Proof.
  apply (handler_missing_body_throws ev0 env_stack
           (fun _ => SdkOk (mkGetExportResponse (Some "application/json") None None))
           (mkGetExportResponse (Some "application/json") None None)); reflexivity.
Defined.

(** Whatever the client calls back with, a run calls the client once and
    calls back at most once; it ends with the successful callback when
    there is one, and with a thrown TypeError otherwise. *)
Lemma handler_trace_shape (ev : APIGatewayProxyEventV2) (pe : env)
  (platform : GetExportRequest -> sdk_result) :
  let tr := handler ev pe platform in
  List.length (filter is_get_export tr) = 1%nat /\
  (List.length (filter is_callback tr) <= 1)%nat /\
  ((exists r, In (CallbackResult r) tr /\ last tr (Throw null_body_error) = CallbackResult r) \/
   ((forall r, ~ In (CallbackResult r) tr) /\ exists e, last tr (Throw null_body_error) = Throw e)).
Proof.
  cbv zeta. unfold handler.
  destruct (platform (getExportParams pe)) as [e | d]; cbn.
  - split; [reflexivity | split; [lia |]]. right. split.
    + intros r [H | [H | [H | []]]]; discriminate.
    + eexists. reflexivity.
  - destruct (body d) as [b |]; cbn.
    + split; [reflexivity | split; [lia |]]. left. eexists. split; [right; left; reflexivity | reflexivity].
    + split; [reflexivity | split; [lia |]]. right. split.
      * intros r [H | [H | []]]; discriminate.
      * eexists. reflexivity.
Qed.

(** X: every successful callback of any run carries status 200 and the one
    header [Access-Control-Allow-Origin: *]. *)
Theorem handler_result_envelope (ev : APIGatewayProxyEventV2) (pe : env)
  (platform : GetExportRequest -> sdk_result) (r : APIGatewayProxyResultV2) :
  In (CallbackResult r) (handler ev pe platform) ->
  statusCode r = 200 /\ headers r = [("Access-Control-Allow-Origin", "*")].
Proof.
  unfold handler. destruct (platform (getExportParams pe)) as [e | d]; cbn.
  - intros [H | [H | [H | []]]]; discriminate.
  - destruct (body d); cbn.
    + intros [H | [H | []]]; [discriminate | inversion H; subst; split; reflexivity].
    + intros [H | [H | []]]; discriminate.
Qed.

Lemma handler_result_envelope_witness :
  statusCode (mkResult 200 cors_headers [0xFFFD]) = 200 /\
  headers (mkResult 200 cors_headers [0xFFFD]) = [("Access-Control-Allow-Origin", "*")].
Proof.
  apply (handler_result_envelope ev0 env_stack
           (fun _ => SdkOk (mkGetExportResponse None None (Some [0xFF])))).
  right. left. reflexivity.
Defined.

Lemma stack_split (now : Z) :
  ApiDocsStack now = app (createApi now []) (skipn 3 (ApiDocsStack 0)).
Proof. reflexivity. Qed.

Lemma in_stack_rest (now : Z) (c : construct) :
  In c (skipn 3 (ApiDocsStack 0)) -> In c (ApiDocsStack now).
Proof. intros H. rewrite stack_split. apply in_or_app. right. exact H. Qed.

Ltac pick_in := vm_compute; repeat (first [left; reflexivity | right]).

(** X: only the first three constructs (the RestApi with its deployment
    description, the documentation version and the API documentation part)
    depend on the time of the run; the rest of the stack is the same on
    every run. *)
Theorem stack_time_dependent_prefix (t1 t2 : Z) :
  firstn 3 (ApiDocsStack t1) = createApi t1 [] /\
  skipn 3 (ApiDocsStack t1) = skipn 3 (ApiDocsStack t2).
Proof. split; reflexivity. Qed.

(** X: the constructs the stack creates in its own scope have pairwise
    distinct ids, as CDK requires of the children of one scope. *)
Theorem stack_child_ids_unique (now : Z) : NoDup (stack_child_ids (ApiDocsStack now)).
Proof.
  change (stack_child_ids (ApiDocsStack now)) with
    ["api"; "brute-force-docs-version"; "api-docs"; "some-request-authorizer-doc";
     "some-authorizer-function"; "some-request-authorizer";
     "ListTodo.Header.Authorization"; "todoIdDocs"; "getOas3"].
  repeat (apply NoDup_cons; [cbn; intuition discriminate |]). apply NoDup_nil.
Qed.

(** X: no two documentation parts of the stack share a location key. *)
Theorem doc_part_locations_unique (now : Z) :
  NoDup (map (fun '(_, l, _) => l) (doc_parts (ApiDocsStack now))).
Proof.
  rewrite doc_parts_eq. cbn [map].
  repeat (apply NoDup_cons; [cbn; intuition discriminate |]). apply NoDup_nil.
Qed.

(** X: the path of every documentation part is a resource of the API, its
    path and method a method of the API, and the name of an AUTHORIZER
    part an authorizer of the stack.  The parameter or header a part
    names is not checked (see [todoId_doc_on_parent_path]). *)
Theorem doc_parts_reference_stack (now : Z) (id : string) (l : Location) (p : json) :
  In (id, l, p) (doc_parts (ApiDocsStack now)) ->
  (forall path, loc_path l = Some path -> In (CResource path) (ApiDocsStack now)) /\
  (forall path m, loc_path l = Some path -> loc_method l = Some m ->
     exists op, In (CMethod path m op) (ApiDocsStack now)) /\
  (loc_type l = Some "AUTHORIZER" -> forall n, loc_name l = Some n ->
     exists aid, In (CAuthorizer aid n) (ApiDocsStack now)).
Proof.
  rewrite doc_parts_eq. intros [H | [H | [H | [H | []]]]]; inversion H; subst; clear H;
    cbn [loc loc_path loc_method loc_type loc_name];
    (split; [| split]); intros; try discriminate;
    repeat match goal with H : Some _ = Some _ |- _ => inversion H; subst; clear H end.
  - exists "some-request-authorizer". apply in_stack_rest. pick_in.
  - apply in_stack_rest. pick_in.
  - exists (Some "ListTodos"). apply in_stack_rest. pick_in.
  - apply in_stack_rest. pick_in.
  - exists (Some "ListTodos"). apply in_stack_rest. pick_in.
Qed.

Lemma doc_parts_reference_stack_witness :
  (forall path, Some "/todo" = Some path -> In (CResource path) (ApiDocsStack 0)) /\
  (forall path m, Some "/todo" = Some path -> Some "GET" = Some m ->
     exists op, In (CMethod path m op) (ApiDocsStack 0)) /\
  (Some "PATH_PARAMETER" = Some "AUTHORIZER" -> forall n, Some "todoId" = Some n ->
     exists aid, In (CAuthorizer aid n) (ApiDocsStack 0)).
Proof.
  apply (doc_parts_reference_stack 0 "todoIdDocs"
           (loc "PATH_PARAMETER" (Some "todoId") (Some "/todo") (Some "GET"))
           (JObj [("description", JStr "The id of the todo");
                  ("format", JStr "uuid");
                  ("example", JStr "01d64dee-e83d-4d26-b15a-5a1cd072b666");
                  ("summary", JStr "Sommary of the id of the todo");
                  ("schema", JObj [("type", JStr "string"); ("format", JStr "uuid");
                     ("example", JStr "3908c6bb-941a-4c35-9a45-c6034006e8c5")])])).
  rewrite doc_parts_eq. right. right. right. left. reflexivity.
Defined.

(** X: the todoId path-parameter documentation is attached to [GET /todo]
    (the ListTodos method), while the parameter belongs to the resource
    [/todo/{todoId}] of GetTodoById; no documentation part points at
    [/todo/{todoId}]. *)
Theorem todoId_doc_on_parent_path (now : Z) :
  (exists id p, In (id, loc "PATH_PARAMETER" (Some "todoId") (Some "/todo") (Some "GET"), p)
                   (doc_parts (ApiDocsStack now))) /\
  In (CMethod "/todo/{todoId}" "GET" (Some "GetTodoById")) (ApiDocsStack now) /\
  (forall id l p, In (id, l, p) (doc_parts (ApiDocsStack now)) ->
     loc_path l <> Some "/todo/{todoId}").
Proof.
  rewrite doc_parts_eq. split; [| split].
  - do 2 eexists. right. right. right. left. reflexivity.
  - apply in_stack_rest. pick_in.
  - intros id l p [H | [H | [H | [H | []]]]]; inversion H; subst; cbn; discriminate.
Qed.

(** X: the export function the stack deploys reads the environment the
    stack gives it, so every run requests the fixed API id [dekq8mivw9] and
    stage [prod] (not the id of the API the same stack creates). *)
Theorem deployed_export_targets_fixed_api (now : Z) (e : env) :
  In (CFunction "getOas3" e) (ApiDocsStack now) ->
  getExportParams e =
  mkGetExportRequest (Some "dekq8mivw9") (Some "prod") "oas30" [("extensions", "documentation")].
Proof.
  rewrite stack_split. intros H. apply in_app_or in H as [H | H].
  - cbn [createApi cfn_documentation_part add app In] in H.
    destruct H as [H | [H | [H | []]]]; discriminate.
  - vm_compute in H.
    repeat (destruct H as [H | H]; [try discriminate |]); try contradiction.
    inversion H; subst. reflexivity.
Qed.

Lemma deployed_export_targets_fixed_api_witness :
  getExportParams env_stack =
  mkGetExportRequest (Some "dekq8mivw9") (Some "prod") "oas30" [("extensions", "documentation")].
Proof.
  apply (deployed_export_targets_fixed_api 1700000000000 env_stack).
  apply in_stack_rest. pick_in.
Defined.

(** * The handler with the aws-sdk client *)

Lemma send_request_shape (server : nat -> GetExportRequest -> http_answer)
  (req : GetExportRequest) : forall left n, exists k,
    fst (send_request left n server req) = repeat req (S k) /\ (k <= left)%nat /\
    (forall i, (i < k)%nat ->
       exists st e, server (n + i)%nat req = HttpErr st e /\ retryableError st e = true) /\
    snd (send_request left n server req) = http_answer_result (server (n + k)%nat req).
Proof.
  induction left as [| left IH]; intros n; cbn [send_request].
  - exists 0%nat. rewrite Nat.add_0_r.
    destruct (server n req) as [d | st e]; cbn [fst snd http_answer_result];
      (split; [reflexivity | split; [lia | split; [intros i Hi; lia | reflexivity]]]).
  - destruct (server n req) as [d | st e] eqn:Hs.
    + exists 0%nat. rewrite Nat.add_0_r, Hs. cbn [fst snd http_answer_result].
      split; [reflexivity | split; [lia | split; [intros i Hi; lia | reflexivity]]].
    + destruct (retryableError st e) eqn:Hr.
      * destruct (IH (S n)) as [k [H1 [H2 [H3 H4]]]].
        destruct (send_request left (S n) server req) as [rs r]. cbn [fst snd] in *.
        exists (S k). split; [rewrite H1; reflexivity |]. split; [lia |]. split.
        -- intros i Hi. destruct i as [| i].
           ++ rewrite Nat.add_0_r. exists st, e. split; assumption.
           ++ replace (n + S i)%nat with (S n + i)%nat by lia. apply H3. lia.
        -- rewrite H4. replace (n + S k)%nat with (S n + k)%nat by lia. reflexivity.
      * exists 0%nat. rewrite Nat.add_0_r, Hs. cbn [fst snd http_answer_result].
        split; [reflexivity | split; [lia | split; [intros i Hi; lia | reflexivity]]].
Qed.

(** One client call sends [k <= 4] copies of its request, none when the
    validation fails; each request but the last got a retryable error. *)
Lemma aws_getExport_shape (server : nat -> GetExportRequest -> http_answer)
  (req : GetExportRequest) : exists k,
    fst (aws_getExport server req) = repeat req k /\ (k <= 4)%nat /\
    (forall i, (S i < k)%nat ->
       exists st e, server i req = HttpErr st e /\ retryableError st e = true) /\
    ((k = 0%nat /\ exists e, validation_error (param_errors req) = Some e /\
                             snd (aws_getExport server req) = SdkErr e) \/
     ((0 < k)%nat /\ validation_error (param_errors req) = None /\
      snd (aws_getExport server req) = http_answer_result (server (k - 1)%nat req))).
Proof.
  unfold aws_getExport. destruct (validation_error (param_errors req)) as [e |] eqn:Hv.
  - exists 0%nat. cbn [fst snd].
    split; [reflexivity | split; [lia | split; [intros i Hi; lia |]]].
    left. split; [reflexivity |]. exists e. split; reflexivity.
  - destruct (send_request_shape server req maxRetries 0) as [k [H1 [H2 [H3 H4]]]].
    exists (S k). split; [exact H1 |]. split; [unfold maxRetries in H2; lia |]. split.
    + intros i Hi. apply H3. lia.
    + right. split; [lia | split; [reflexivity |]].
      rewrite H4. replace (S k - 1)%nat with k by lia. reflexivity.
Qed.

Lemma http_requests_callback (server : nat -> GetExportRequest -> http_answer)
  (err : option AWSError) (data : option GetExportResponse) :
  http_requests server (export_callback err data) = [].
Proof.
  unfold export_callback.
  destruct err as [e |], data as [d |]; try destruct (body d); reflexivity.
Qed.

(** The requests of a run are those of its one client call. *)
Lemma handler_http_eq (ev : APIGatewayProxyEventV2) (pe : env)
  (server : nat -> GetExportRequest -> http_answer) :
  handler_http ev pe server =
  map (pair "eu-west-1") (fst (aws_getExport server (getExportParams pe))).
Proof.
  unfold handler_http, handler_aws, handler.
  destruct (sdk_callback_args (sdk_outcome server (getExportParams pe))) as [err data].
  cbn [http_requests]. rewrite http_requests_callback. apply app_nil_r.
Qed.




(** C3: with an empty [restApiId] or [stage] the export fails before any
    request reaches API Gateway, whatever it would answer: the SDK's
    parameter validation rejects the call (UriParameterError, or
    MultipleValidationErrors when several parameters are bad) and that
    error is what the handler calls back with. *)
Theorem handler_empty_id_rejected_locally (ev : APIGatewayProxyEventV2) (pe : env)
  (server : nat -> GetExportRequest -> http_answer) :
  env_get pe "restApiId" = Some EmptyString \/ env_get pe "stage" = Some EmptyString ->
  handler_http ev pe server = [] /\
  exists e, (err_code e = "UriParameterError" \/ err_code e = "MultipleValidationErrors") /\
    handler_aws ev pe server =
    [GetExport "eu-west-1" (getExportParams pe); CallbackError e; Throw null_body_error].
Proof.
  intros H.
  assert (Hv : exists e, validation_error (param_errors (getExportParams pe)) = Some e /\
            (err_code e = "UriParameterError" \/ err_code e = "MultipleValidationErrors")).
  { unfold getExportParams, param_errors. cbn [restApiId stageName exportType].
    destruct H as [H | H]; rewrite H;
      [destruct (env_get pe "stage") as [[| c t] |] |
       destruct (env_get pe "restApiId") as [[| c t] |]];
      (eexists; split; [reflexivity | cbn; first [left; reflexivity | right; reflexivity]]). }
  destruct Hv as [e [Hv Hc]].
  assert (Ha : aws_getExport server (getExportParams pe) = ([], SdkErr e))
    by (unfold aws_getExport; rewrite Hv; reflexivity).
  split.
  - rewrite handler_http_eq, Ha. reflexivity.
  - exists e. split; [exact Hc |]. unfold handler_aws, handler, sdk_outcome. rewrite Ha. reflexivity.
Qed.

Lemma handler_empty_id_rejected_locally_witness :
  handler_http ev0 env_empty_id bad_request_server = [] /\
  exists e, (err_code e = "UriParameterError" \/ err_code e = "MultipleValidationErrors") /\
    handler_aws ev0 env_empty_id bad_request_server =
    [GetExport "eu-west-1" (getExportParams env_empty_id); CallbackError e; Throw null_body_error].
Proof.
  apply (handler_empty_id_rejected_locally ev0 env_empty_id bad_request_server).
  left. reflexivity.
Defined.

(** C10: two invocations whose environments agree on [restApiId] and
    [stage] behave the same, whatever their events and whatever else their
    environments hold: the same trace, starting with the same client call,
    for any answer of the client, and the same HTTP requests for any
    answers of API Gateway. *)
Theorem handler_event_independent_config (ev1 ev2 : APIGatewayProxyEventV2) (pe1 pe2 : env) :
  env_get pe1 "restApiId" = env_get pe2 "restApiId" ->
  env_get pe1 "stage" = env_get pe2 "stage" ->
  (forall platform : GetExportRequest -> sdk_result,
     handler ev1 pe1 platform = handler ev2 pe2 platform /\
     hd_error (handler ev1 pe1 platform) = Some (GetExport "eu-west-1" (getExportParams pe1))) /\
  (forall server : nat -> GetExportRequest -> http_answer,
     handler_http ev1 pe1 server = handler_http ev2 pe2 server).
Proof.
  intros Ha Hs.
  assert (Hg : getExportParams pe1 = getExportParams pe2)
    by (unfold getExportParams; rewrite Ha, Hs; reflexivity).
  split.
  - intros platform. unfold handler. rewrite Hg. split; reflexivity.
  - intros server. rewrite !handler_http_eq, Hg. reflexivity.
Qed.

Lemma handler_event_independent_config_witness :
  (forall platform : GetExportRequest -> sdk_result,
     handler ev0 env_stack platform = handler ev1 env_stack_traced platform /\
     hd_error (handler ev0 env_stack platform) =
       Some (GetExport "eu-west-1" (getExportParams env_stack))) /\
  (forall server : nat -> GetExportRequest -> http_answer,
     handler_http ev0 env_stack server = handler_http ev1 env_stack_traced server).
Proof.
  apply (handler_event_independent_config ev0 ev1 env_stack env_stack_traced);
    reflexivity.
Defined.

(** X: a run with the real client calls [client.getExport] once and calls
    back at most once, ending with the successful callback when there is
    one and with a thrown TypeError otherwise.  The call sends at most four
    HTTP requests, all with the same parameters, and none exactly when the
    SDK's parameter validation rejects them. *)
Theorem handler_run_requests_shape (ev : APIGatewayProxyEventV2) (pe : env)
  (server : nat -> GetExportRequest -> http_answer) :
  let tr := handler_aws ev pe server in
  List.length (filter is_get_export tr) = 1%nat /\
  (List.length (filter is_callback tr) <= 1)%nat /\
  ((exists r, In (CallbackResult r) tr /\ last tr (Throw null_body_error) = CallbackResult r) \/
   ((forall r, ~ In (CallbackResult r) tr) /\ exists e, last tr (Throw null_body_error) = Throw e)) /\
  exists k,
    handler_http ev pe server = repeat ("eu-west-1", getExportParams pe) k /\ (k <= 4)%nat /\
    (k = 0%nat <-> validation_error (param_errors (getExportParams pe)) <> None).
Proof.
  cbv zeta.
  destruct (handler_trace_shape ev pe (sdk_outcome server)) as [H1 [H2 H3]].
  split; [exact H1 | split; [exact H2 | split; [exact H3 |]]].
  destruct (aws_getExport_shape server (getExportParams pe)) as [k [K1 [K2 [_ K4]]]].
  exists k. split; [rewrite handler_http_eq, K1; apply map_repeat |]. split; [exact K2 |].
  destruct K4 as [[Hk [e [Hv _]]] | [Hk [Hv _]]]; split; intros H.
  - rewrite Hv. discriminate.
  - exact Hk.
  - lia.
  - contradiction.
Qed.
